(** * we.math.TransformationMatrix: a 4x4 transformation matrix and its operations

    A shallow embedding of [src/we/math/transformationmatrix.js].

    Numbers.  The methods are embedded twice.  In the first reading a
    JavaScript number is a real number ([R]) and [Math.cos], [Math.sin] are
    the real cosine and sine: arithmetic is exact.  It serves the statements
    that do not depend on rounding (which matrix a method builds, which
    property it assigns, in which order it multiplies) and the statements
    made explicitly about exact arithmetic.  In the second reading, module
    [Double], a number is an IEEE 754 binary64 value, as in the program; it
    serves to evaluate calls bit for bit.

    Objects.  A [goog.math.Matrix] is its array of rows; a
    [we.math.TransformationMatrix] object is the record of its properties:
    the private [matrix_] every method reads, and the property [matrix]
    that [lookAt] creates (absent until then).  A method that mutates
    [this] is a function from the object before the call to the object
    after it; [None] stands for an [Error] thrown by the matrix library. *)

From Stdlib Require Import Reals Lra Lia List Arith RNsatz.
From Stdlib Require Floats.
Import ListNotations.

Open Scope R_scope.

(** ** The option monad used for calls that may throw *)

Definition bind {A B : Type} (o : option A) (k : A -> option B) : option B :=
  match o with
  | Some a => k a
  | None => None
  end.

Notation "x <- o ;; k" := (bind o (fun x => k))
  (at level 61, o at next level, right associativity).

(** ** goog.math.Matrix (Closure Library, required by the source) *)

Module Matrix.

(** The [array_] of a matrix: its rows, each a list of cells. *)
Definition t : Type := list (list R).

Definition height (m : t) : nat := length m.
Definition width (m : t) : nat := length (hd [] m).

(** [m] has [h] rows of [w] cells each. *)
Definition dims (h w : nat) (m : t) : Prop :=
  length m = h /\ Forall (fun row => length row = w) m.

(** [this.array_[i][j]]. *)
Definition cell (m : t) (i j : nat) : R := nth j (nth i m []) 0.

Definition isInBounds_ (m : t) (i j : nat) : bool :=
  (i <? height m)%nat && (j <? width m)%nat.

(** Modelled from the spec: goog.math.Matrix.prototype.getValueAt,
    "per-cell get ... by (row, column) indices"; the library answers
    [null] (here [None]) outside the matrix. *)
Definition getValueAt (m : t) (i j : nat) : option R :=
  if isInBounds_ m i j then Some (cell m i j) else None.

Fixpoint update {A : Type} (k : nat) (f : A -> A) (l : list A) : list A :=
  match l, k with
  | [], _ => []
  | a :: l', O => f a :: l'
  | a :: l', S k' => a :: update k' f l'
  end.

(** Modelled from the spec: goog.math.Matrix.prototype.setValueAt,
    "per-cell ... set by (row, column) indices"; the library throws
    outside the matrix. *)
Definition setValueAt (m : t) (i j : nat) (v : R) : option t :=
  if isInBounds_ m i j
  then Some (update i (update j (fun _ => v)) m)
  else None.

(** Modelled from the spec: [new goog.math.Matrix(new goog.math.Size(w, h))],
    the matrix "creation" used by getInverseMat3: [h] rows of [w] zeros. *)
Definition zeros (w h : nat) : t := repeat (repeat 0 w) h.

(** Modelled from the spec: goog.math.Matrix.createIdentityMatrix, "a matrix
    type constructible as an N x N identity matrix". *)
Definition createIdentityMatrix (n : nat) : t :=
  map (fun i => map (fun j => if (i =? j)%nat then 1 else 0) (seq 0 n))
      (seq 0 n).

(** The cell (x, y) of a product: the library's accumulation loop
    [newVal = 0; for (i ...) newVal += this[x][i] * m[i][y]]. *)
Definition productCell (a b : t) (x y : nat) : R :=
  fold_left (fun newVal i => newVal + cell a x i * cell b i y)
            (seq 0 (width a)) 0.

Definition matrixMultiply_ (a b : t) : t :=
  map (fun x => map (fun y => productCell a b x y) (seq 0 (width b)))
      (seq 0 (height a)).

(** Modelled from the spec: goog.math.Matrix.prototype.multiply, "matrix
    multiplication (returning a new matrix)"; the library throws when the
    width of the left operand is not the height of the right one. *)
Definition multiply (a b : t) : option t :=
  if (width a =? height b)%nat then Some (matrixMultiply_ a b) else None.

Fixpoint remove_nth {A : Type} (k : nat) (l : list A) : list A :=
  match l, k with
  | [], _ => []
  | _ :: l', O => l'
  | a :: l', S k' => a :: remove_nth k' l'
  end.

(** The matrix without row [i] and column [j]. *)
Definition minor (i j : nat) (m : t) : t :=
  map (remove_nth j) (remove_nth i m).

(** Determinant of an [n] x [n] matrix by cofactor expansion along the
    first row. *)
Fixpoint det (n : nat) (m : t) : R :=
  match n with
  | O => 1
  | S n' =>
      fold_left
        (fun acc j => acc + (-1) ^ j * cell m 0 j * det n' (minor 0 j m))
        (seq 0 n) 0
  end.

Definition cofactor (n : nat) (m : t) (i j : nat) : R :=
  (-1) ^ (i + j) * det (pred n) (minor i j m).

(** Modelled from the spec: goog.math.Matrix.prototype.getInverse, the
    matrix "computing its own inverse (e.g., via cofactor expansion ...)";
    a matrix that is not square or not invertible has no inverse and the
    library answers [null] (here [None]). *)
Definition getInverse (m : t) : option t :=
  if (width m =? height m)%nat then
    let n := height m in
    let d := det n m in
    if Req_dec_T d 0 then None
    else Some (map (fun i => map (fun j => cofactor n m j i / d) (seq 0 n))
                   (seq 0 n))
  else None.

End Matrix.

(** ** goog.math.Vec3 (Closure Library, required by the source) *)

Module Vec3.

Record t : Type := mk { x : R; y : R; z : R }.

(** Modelled from the spec: goog.math.Vec3.prototype.subtract,
    "component-wise subtraction". *)
Definition subtract (a b : t) : t :=
  mk (x a - x b) (y a - y b) (z a - z b).

Definition magnitude (a : t) : R :=
  sqrt (x a * x a + y a * y a + z a * z a).

(** Modelled from the spec: goog.math.Vec3.prototype.normalize, "Euclidean
    normalization (divide by magnitude)".  For the zero vector the library
    divides by 0 and yields not-a-number components, which a real number
    cannot be: no statement below reads the result in that case. *)
Definition normalize (a : t) : t :=
  mk (x a / magnitude a) (y a / magnitude a) (z a / magnitude a).

(** Modelled from the spec: goog.math.Vec3.cross, "the 3D cross product". *)
Definition cross (a b : t) : t :=
  mk (y a * z b - z a * y b)
     (z a * x b - x a * z b)
     (x a * y b - y a * x b).

End Vec3.

(** ** we.math.TransformationMatrix *)

Record TransformationMatrix : Type := mkTM {
  matrix_ : Matrix.t;          (* this.matrix_ *)
  matrix : option Matrix.t     (* this.matrix, undefined until lookAt *)
}.

(** [this.matrix_ = m]: the other property is kept. *)
Definition set_matrix_ (this : TransformationMatrix) (m : Matrix.t)
  : TransformationMatrix :=
  mkTM m (matrix this).

(** [this.matrix = m]. *)
Definition set_matrix (this : TransformationMatrix) (m : Matrix.t)
  : TransformationMatrix :=
  mkTM (matrix_ this) (Some m).

(** The constructor. *)
Definition new : TransformationMatrix :=
  mkTM (Matrix.createIdentityMatrix 4) None.

Definition getStandardMatrix (this : TransformationMatrix) : Matrix.t :=
  matrix_ this.

Definition loadIdentity (this : TransformationMatrix) : TransformationMatrix :=
  set_matrix_ this (Matrix.createIdentityMatrix 4).

(** The operation matrices, as the source writes them. *)

Definition translate_matrix (x y z : R) : Matrix.t :=
  [ [1; 0; 0; x];
    [0; 1; 0; y];
    [0; 0; 1; z];
    [0; 0; 0; 1] ].

Definition scale_matrix (x y z : R) : Matrix.t :=
  [ [x; 0; 0; 0];
    [0; y; 0; 0];
    [0; 0; z; 0];
    [0; 0; 0; 1] ].

Definition rotate_matrix (angle x y z : R) : Matrix.t :=
  let c := cos angle in
  let s := sin angle in
  [ [x * x * (1 - c) + c; x * y * (1 - c) - z * s; x * z * (1 - c) + y * s; 0];
    [y * x * (1 - c) + z * s; y * y * (1 - c) + c; y * z * (1 - c) - x * s; 0];
    [z * x * (1 - c) - y * s; z * y * (1 - c) + x * s; z * z * (1 - c) + c; 0];
    [0; 0; 0; 1] ].

Definition rotate010_matrix (angle : R) : Matrix.t :=
  let c := cos angle in
  let s := sin angle in
  [ [c; 0; s; 0];
    [0; 1; 0; 0];
    [- s; 0; c; 0];
    [0; 0; 0; 1] ].

Definition rotate100_matrix (angle : R) : Matrix.t :=
  let c := cos angle in
  let s := sin angle in
  [ [1; 0; 0; 0];
    [0; c; - s; 0];
    [0; s; c; 0];
    [0; 0; 0; 1] ].

Definition rotate001_matrix (angle : R) : Matrix.t :=
  let c := cos angle in
  let s := sin angle in
  [ [c; - s; 0; 0];
    [s; c; 0; 0];
    [0; 0; 1; 0];
    [0; 0; 0; 1] ].

(** [this.matrix_ = this.matrix_.multiply(op)]. *)
Definition compose (op : Matrix.t) (this : TransformationMatrix)
  : option TransformationMatrix :=
  m <- Matrix.multiply (matrix_ this) op ;;
  Some (set_matrix_ this m).

Definition translate (x y z : R) : TransformationMatrix -> option TransformationMatrix :=
  compose (translate_matrix x y z).

Definition scale (x y z : R) : TransformationMatrix -> option TransformationMatrix :=
  compose (scale_matrix x y z).

Definition rotate (angle x y z : R) : TransformationMatrix -> option TransformationMatrix :=
  compose (rotate_matrix angle x y z).

Definition rotate010 (angle : R) : TransformationMatrix -> option TransformationMatrix :=
  compose (rotate010_matrix angle).

Definition rotate100 (angle : R) : TransformationMatrix -> option TransformationMatrix :=
  compose (rotate100_matrix angle).

Definition rotate001 (angle : R) : TransformationMatrix -> option TransformationMatrix :=
  compose (rotate001_matrix angle).

(** The three vectors lookAt computes: [fw], [side] and the new [up]. *)
Definition lookAt_fw (eye center : Vec3.t) : Vec3.t :=
  Vec3.normalize (Vec3.subtract center eye).

Definition lookAt_side (eye center up : Vec3.t) : Vec3.t :=
  Vec3.normalize (Vec3.cross (lookAt_fw eye center) up).

Definition lookAt_up (eye center up : Vec3.t) : Vec3.t :=
  Vec3.cross (lookAt_side eye center up) (lookAt_fw eye center).

Definition lookAt_matrix (eye center up : Vec3.t) : Matrix.t :=
  let fw := lookAt_fw eye center in
  let side := lookAt_side eye center up in
  let up := lookAt_up eye center up in
  [ [Vec3.x side; Vec3.y side; Vec3.z side; 0];
    [Vec3.x up; Vec3.y up; Vec3.z up; 0];
    [- Vec3.x fw; - Vec3.y fw; - Vec3.z fw; 0];
    [0; 0; 0; 1] ].

(** lookAt: the product with the orientation matrix is assigned to
    [this.matrix]; then [this.translate(-eye.x, -eye.y, -eye.z)].  The three
    vectors are values here: what the library's in-place [subtract] and
    [normalize] do to the caller's [center] object is not part of the
    state of the TransformationMatrix. *)
Definition lookAt (eye center up : Vec3.t) (this : TransformationMatrix)
  : option TransformationMatrix :=
  m <- Matrix.multiply (matrix_ this) (lookAt_matrix eye center up) ;;
  translate (- Vec3.x eye) (- Vec3.y eye) (- Vec3.z eye) (set_matrix this m).

(** The copy loop of getInverseMat3:
    [m.setValueAt(i, j, this.matrix_.getValueAt(i, j))] for i, j below 3.
    A cell outside [this.matrix_] (which a 4x4 matrix does not have) is not
    a number and ends the model's run with [None]. *)
Definition copyCell (src : Matrix.t) (i j : nat) (m : Matrix.t) : option Matrix.t :=
  v <- Matrix.getValueAt src i j ;;
  Matrix.setValueAt m i j v.

Definition copyRow (src : Matrix.t) (i : nat) (m : Matrix.t) : option Matrix.t :=
  fold_left (fun acc j => m' <- acc ;; copyCell src i j m') (seq 0 3) (Some m).

Definition copy3x3 (src : Matrix.t) : option Matrix.t :=
  fold_left (fun acc i => m' <- acc ;; copyRow src i m') (seq 0 3)
            (Some (Matrix.zeros 3 3)).

(** The result is the library's: [None] is its [null]. *)
Definition getInverseMat3 (this : TransformationMatrix) : option Matrix.t :=
  m <- copy3x3 (matrix_ this) ;;
  Matrix.getInverse m.

(** ** Sequences of composition operations *)

Inductive operation : Type :=
| Translate (x y z : R)
| Scale (x y z : R)
| Rotate (angle x y z : R)
| Rotate010 (angle : R)
| Rotate100 (angle : R)
| Rotate001 (angle : R)
| LookAt (eye center up : Vec3.t)
| LoadIdentity.

Definition perform (o : operation) (this : TransformationMatrix)
  : option TransformationMatrix :=
  match o with
  | Translate x y z => translate x y z this
  | Scale x y z => scale x y z this
  | Rotate angle x y z => rotate angle x y z this
  | Rotate010 angle => rotate010 angle this
  | Rotate100 angle => rotate100 angle this
  | Rotate001 angle => rotate001 angle this
  | LookAt eye center up => lookAt eye center up this
  | LoadIdentity => Some (loadIdentity this)
  end.

Fixpoint run (os : list operation) (this : TransformationMatrix)
  : option TransformationMatrix :=
  match os with
  | [] => Some this
  | o :: os' => this' <- perform o this ;; run os' this'
  end.

(** The invariant of the data model: [matrix_] is 4x4. *)
Definition wf (this : TransformationMatrix) : Prop :=
  Matrix.dims 4 4 (matrix_ this).

(** Whether an operation is a call of lookAt. *)
Definition is_lookAt (o : operation) : bool :=
  match o with
  | LookAt _ _ _ => true
  | _ => false
  end.

(** ** The vocabulary of the specification

    The matrices and the product the specification speaks of, written from
    its words and independently of the code above. *)

Module Spec.

Definition dot (u v : list R) : R :=
  fold_right Rplus 0 (map (fun p => fst p * snd p) (combine u v)).

Definition column (j : nat) (b : Matrix.t) : list R :=
  map (fun row => nth j row 0) b.

(** The matrix product [a x b]: cell (i, j) is row [i] of [a] times
    column [j] of [b]. *)
Definition mul (a b : Matrix.t) : Matrix.t :=
  map (fun row => map (fun j => dot row (column j b))
                      (seq 0 (length (hd [] b))))
      a.

Definition transpose (a : Matrix.t) : Matrix.t :=
  map (fun j => column j a) (seq 0 (length (hd [] a))).

(** The diagonal matrix of a list of numbers. *)
Definition diag (d : list R) : Matrix.t :=
  map (fun i => map (fun j => if (i =? j)%nat then nth i d 0 else 0)
                    (seq 0 (length d)))
      (seq 0 (length d)).

Definition identity (n : nat) : Matrix.t := diag (repeat 1 n).

(** [a] with cell (i, j) set to [v]. *)
Definition set (i j : nat) (v : R) (a : Matrix.t) : Matrix.t :=
  Matrix.update i (Matrix.update j (fun _ => v)) a.

(** T(x, y, z): "identity with last column's top three entries set to
    x, y, z". *)
Definition translation (x y z : R) : Matrix.t :=
  set 2 3 z (set 1 3 y (set 0 3 x (identity 4))).

(** S(x, y, z): "diagonal(x, y, z, 1)". *)
Definition scaling (x y z : R) : Matrix.t := diag [x; y; z; 1].

(** R(angle, axis): the matrix of Rodrigues' formula as the specification
    prints it. *)
Definition rodrigues (theta x y z : R) : Matrix.t :=
  let c := cos theta in
  let s := sin theta in
  [ [x ^ 2 * (1 - c) + c; x * y * (1 - c) - z * s; x * z * (1 - c) + y * s; 0];
    [y * x * (1 - c) + z * s; y ^ 2 * (1 - c) + c; y * z * (1 - c) - x * s; 0];
    [z * x * (1 - c) - y * s; z * y * (1 - c) + x * s; z ^ 2 * (1 - c) + c; 0];
    [0; 0; 0; 1] ].

(** The rows of a 3-vector and of its opposite, closed by a 0. *)
Definition row_of (v : Vec3.t) : list R :=
  [Vec3.x v; Vec3.y v; Vec3.z v; 0].

Definition neg (v : Vec3.t) : Vec3.t :=
  Vec3.mk (- Vec3.x v) (- Vec3.y v) (- Vec3.z v).

(** O: the orientation matrix of lookAt, rows side, up', -forward and
    (0, 0, 0, 1). *)
Definition orientation (eye center up : Vec3.t) : Matrix.t :=
  let forward := Vec3.normalize (Vec3.subtract center eye) in
  let side := Vec3.normalize (Vec3.cross forward up) in
  let up' := Vec3.cross side forward in
  [ row_of side; row_of up'; row_of (neg forward); [0; 0; 0; 1] ].

(** The upper-left 3x3 submatrix. *)
Definition upper_left_3x3 (a : Matrix.t) : Matrix.t :=
  map (firstn 3) (firstn 3 a).


End Spec.

(** ** The same source in binary64

    The definitions above read a JavaScript number as a real number.  The
    module below embeds the same methods with the numbers the program
    really computes with, IEEE 754 binary64, so that a call can be evaluated
    bit for bit.  [Math.cos] and [Math.sin] belong to the host; their values
    are tabulated at the angles used in this file. *)

#[local] Set Warnings "-inexact-float".

Module Double.

Import Floats.PrimFloat.
Local Open Scope float_scope.

(** The [array_] of a matrix of doubles. *)
Definition t : Type := list (list float).

Definition height (m : t) : nat := length m.
Definition width (m : t) : nat := length (hd [] m).

(** [this.array_[i][j]]. *)
Definition cell (m : t) (i j : nat) : float := nth j (nth i m []) 0.

Definition isInBounds_ (m : t) (i j : nat) : bool :=
  (i <? height m)%nat && (j <? width m)%nat.

(** Modelled from the spec: goog.math.Matrix.prototype.getValueAt, as
    [Matrix.getValueAt]. *)
Definition getValueAt (m : t) (i j : nat) : option float :=
  if isInBounds_ m i j then Some (cell m i j) else None.

(** Modelled from the spec: goog.math.Matrix.prototype.setValueAt, as
    [Matrix.setValueAt]. *)
Definition setValueAt (m : t) (i j : nat) (v : float) : option t :=
  if isInBounds_ m i j
  then Some (Matrix.update i (Matrix.update j (fun _ => v)) m)
  else None.

(** Modelled from the spec: [new goog.math.Matrix(new goog.math.Size(w, h))],
    as [Matrix.zeros]. *)
Definition zeros (w h : nat) : t := repeat (repeat 0 w) h.

(** Modelled from the spec: goog.math.Matrix.createIdentityMatrix, as
    [Matrix.createIdentityMatrix]. *)
Definition createIdentityMatrix (n : nat) : t :=
  map (fun i => map (fun j => if (i =? j)%nat then 1 else 0) (seq 0 n))
      (seq 0 n).

(** The accumulation loop of the product, each sum and product rounded. *)
Definition productCell (a b : t) (x y : nat) : float :=
  fold_left (fun newVal i => newVal + cell a x i * cell b i y)
            (seq 0 (width a)) 0.

Definition matrixMultiply_ (a b : t) : t :=
  map (fun x => map (fun y => productCell a b x y) (seq 0 (width b)))
      (seq 0 (height a)).

(** Modelled from the spec: goog.math.Matrix.prototype.multiply, as
    [Matrix.multiply]. *)
Definition multiply (a b : t) : option t :=
  if (width a =? height b)%nat then Some (matrixMultiply_ a b) else None.

(** The transposed matrix. *)
Definition transpose (a : t) : t :=
  map (fun j => map (fun row => nth j row 0) a) (seq 0 (width a)).

(** The upper-left 3x3 block. *)
Definition upper_left_3x3 (a : t) : t := map (firstn 3) (firstn 3 a).

(** [f] applied to every element with its index. *)
Definition mapi {A B : Type} (f : nat -> A -> B) (l : list A) : list B :=
  map (fun p => f (fst p) (snd p)) (combine (seq 0 (length l)) l).

(** The search for a pivot: from [(i, col)] down the column, then from row
    [row] of the next column, until a cell is not [== 0]; [None] when the
    columns run out. *)
Fixpoint findPivot (fuel : nat) (m : t) (row i col : nat)
  : option (nat * nat) :=
  match fuel with
  | O => None
  | S fuel' =>
      if cell m i col =? 0 then
        if (S i =? height m)%nat then
          if (S col =? width m)%nat then None
          else findPivot fuel' m row row (S col)
        else findPivot fuel' m row (S i) col
      else Some (i, col)
  end.

Definition swapRows_ (m : t) (i1 i2 : nat) : t :=
  mapi (fun i r => if (i =? i1)%nat then nth i2 m []
                   else if (i =? i2)%nat then nth i1 m []
                   else r) m.

(** One round of the elimination for row [row]: the pivot row is divided by
    the pivot from column [col] on, and a multiple of it is subtracted from
    every other row. *)
Definition eliminate (m : t) (row i col : nat) : t :=
  let m1 := swapRows_ m i row in
  let divisor := cell m1 row col in
  let m2 := Matrix.update row
              (mapi (fun j v => if (col <=? j)%nat then v / divisor else v))
              m1 in
  mapi (fun i' r =>
          if (i' =? row)%nat then r
          else
            let multiple := cell m2 i' col in
            mapi (fun j v => if (col <=? j)%nat
                             then v - multiple * cell m2 row j
                             else v) r)
       m2.

(** The loop over the rows; the state is the matrix, the current column and
    whether the function has returned. *)
Definition reduceRow (st : t * nat * bool) (row : nat) : t * nat * bool :=
  let '(m, col, returned) := st in
  if returned then st
  else if (width m <=? col)%nat then (m, col, true)
  else
    match findPivot (height m * width m) m row row col with
    | None => (m, col, true)
    | Some (i, col') => (eliminate m row i col', S col', false)
    end.

(** Modelled from the spec: goog.math.Matrix.prototype.getReducedRowEchelonForm,
    the "Gauss-Jordan elimination" behind the inverse. *)
Definition getReducedRowEchelonForm (m : t) : t :=
  fst (fst (fold_left reduceRow (seq 0 (height m)) (m, O, false))).

Definition appendColumns (a b : t) : t :=
  map (fun p => fst p ++ snd p) (combine a b).

Definition equals (a b : t) : bool :=
  (height a =? height b)%nat && (width a =? width b)%nat
  && forallb (fun p => forallb (fun q => fst q =? snd q)
                               (combine (fst p) (snd p)))
             (combine a b).

(** Modelled from the spec: goog.math.Matrix.prototype.getInverse, the
    matrix "computing its own inverse (e.g., via ... Gauss-Jordan
    elimination ...)": [m] with the identity appended is reduced; when the
    left half has become the identity the right half is the inverse,
    otherwise there is none ([null], here [None]). *)
Definition getInverse (m : t) : option t :=
  if (width m =? height m)%nat then
    let n := height m in
    let mi := getReducedRowEchelonForm
                (appendColumns m (createIdentityMatrix n)) in
    if equals (map (firstn n) mi) (createIdentityMatrix n)
    then Some (map (skipn n) mi)
    else None
  else None.

(** The host's [Math.PI], and [Math.cos] and [Math.sin] at the angles used
    in this file (not a number elsewhere). *)
Definition Math_PI : float := 3.141592653589793.

Definition Math_cos (angle : float) : float :=
  if angle =? 1.58 then -0.009203543268808336
  else if angle =? 0.08 then 0.9968017063026194
  else if angle =? Math_PI / 3 then 0.5000000000000001
  else nan.

Definition Math_sin (angle : float) : float :=
  if angle =? 1.58 then 0.9999576464987401
  else if angle =? 0.08 then 0.0799146939691727
  else if angle =? Math_PI / 3 then 0.8660254037844386
  else nan.

(** we.math.TransformationMatrix, over doubles. *)
Record TransformationMatrix : Type := mkTM {
  matrix_ : t;
  matrix : option t
}.

Definition new : TransformationMatrix := mkTM (createIdentityMatrix 4) None.

Definition getStandardMatrix (this : TransformationMatrix) : t :=
  matrix_ this.

(** [this.matrix_ = this.matrix_.multiply(op)]. *)
Definition compose (op : t) (this : TransformationMatrix)
  : option TransformationMatrix :=
  m <- multiply (matrix_ this) op ;;
  Some (mkTM m (matrix this)).

Definition scale (x y z : float) : TransformationMatrix -> option TransformationMatrix :=
  compose [ [x; 0; 0; 0];
            [0; y; 0; 0];
            [0; 0; z; 0];
            [0; 0; 0; 1] ].

Definition rotate_matrix (angle x y z : float) : t :=
  let c := Math_cos angle in
  let s := Math_sin angle in
  [ [x * x * (1 - c) + c; x * y * (1 - c) - z * s; x * z * (1 - c) + y * s; 0];
    [y * x * (1 - c) + z * s; y * y * (1 - c) + c; y * z * (1 - c) - x * s; 0];
    [z * x * (1 - c) - y * s; z * y * (1 - c) + x * s; z * z * (1 - c) + c; 0];
    [0; 0; 0; 1] ].

Definition rotate (angle x y z : float) : TransformationMatrix -> option TransformationMatrix :=
  compose (rotate_matrix angle x y z).

Definition rotate010 (angle : float) : TransformationMatrix -> option TransformationMatrix :=
  let c := Math_cos angle in
  let s := Math_sin angle in
  compose [ [c; 0; s; 0];
            [0; 1; 0; 0];
            [- s; 0; c; 0];
            [0; 0; 0; 1] ].

Definition rotate100 (angle : float) : TransformationMatrix -> option TransformationMatrix :=
  let c := Math_cos angle in
  let s := Math_sin angle in
  compose [ [1; 0; 0; 0];
            [0; c; - s; 0];
            [0; s; c; 0];
            [0; 0; 0; 1] ].

Definition rotate001 (angle : float) : TransformationMatrix -> option TransformationMatrix :=
  let c := Math_cos angle in
  let s := Math_sin angle in
  compose [ [c; - s; 0; 0];
            [s; c; 0; 0];
            [0; 0; 1; 0];
            [0; 0; 0; 1] ].

(** The copy loop of getInverseMat3, as [copy3x3]. *)
Definition copyCell (src : t) (i j : nat) (m : t) : option t :=
  v <- getValueAt src i j ;;
  setValueAt m i j v.

Definition copyRow (src : t) (i : nat) (m : t) : option t :=
  fold_left (fun acc j => m' <- acc ;; copyCell src i j m') (seq 0 3) (Some m).

Definition copy3x3 (src : t) : option t :=
  fold_left (fun acc i => m' <- acc ;; copyRow src i m') (seq 0 3)
            (Some (zeros 3 3)).

Definition getInverseMat3 (this : TransformationMatrix) : option t :=
  m <- copy3x3 (matrix_ this) ;;
  getInverse m.

End Double.

(** ** Shapes *)

Lemma length4_inv {A : Type} (l : list A) :
  length l = 4%nat -> exists a b c d, l = [a; b; c; d].
Proof.
  destruct l as [|a [|b [|c [|d [|e l]]]]]; simpl; try discriminate.
  intros _. now exists a, b, c, d.
Qed.

Lemma dims44_inv (m : Matrix.t) :
  Matrix.dims 4 4 m ->
  exists a00 a01 a02 a03 a10 a11 a12 a13 a20 a21 a22 a23 a30 a31 a32 a33,
    m = [ [a00; a01; a02; a03]; [a10; a11; a12; a13];
          [a20; a21; a22; a23]; [a30; a31; a32; a33] ].
Proof.
  intros [Hlen Hrows].
  destruct (length4_inv m Hlen) as (r0 & r1 & r2 & r3 & E). subst m.
  inversion_clear Hrows as [|? ? H0 Hrows1].
  inversion_clear Hrows1 as [|? ? H1 Hrows2].
  inversion_clear Hrows2 as [|? ? H2 Hrows3].
  inversion_clear Hrows3 as [|? ? H3 _].
  destruct (length4_inv r0 H0) as (a00 & a01 & a02 & a03 & E0).
  destruct (length4_inv r1 H1) as (a10 & a11 & a12 & a13 & E1).
  destruct (length4_inv r2 H2) as (a20 & a21 & a22 & a23 & E2).
  destruct (length4_inv r3 H3) as (a30 & a31 & a32 & a33 & E3).
  subst r0 r1 r2 r3.
  exists a00, a01, a02, a03, a10, a11, a12, a13.
  now exists a20, a21, a22, a23, a30, a31, a32, a33.
Qed.

Lemma dims44_intro (a00 a01 a02 a03 a10 a11 a12 a13
                    a20 a21 a22 a23 a30 a31 a32 a33 : R) :
  Matrix.dims 4 4 [ [a00; a01; a02; a03]; [a10; a11; a12; a13];
                    [a20; a21; a22; a23]; [a30; a31; a32; a33] ].
Proof. split; [reflexivity | repeat constructor]. Qed.

(** Names a 4x4 matrix cell by cell. *)
Ltac name_cells H :=
  let a := fresh "a" in
  destruct (dims44_inv _ H)
    as (a & ? & ? & ? & ? & ? & ? & ? & ? & ? & ? & ? & ? & ? & ? & ? & ?);
  subst.

(** Closes an equation between two explicit matrices of polynomials. *)
Ltac cells := repeat (f_equal; try ring).

(** Splits an equation between explicit lists into its cells. *)
Ltac split_cells :=
  repeat match goal with
         | |- [] = [] => reflexivity
         | |- _ :: _ = _ :: _ => apply (f_equal2 cons)
         end.

(** The product of a 4x4 matrix by a 4x4 matrix is defined, is 4x4, and is
    the product of the specification. *)
Lemma multiply_4x4 (a b : Matrix.t) :
  Matrix.dims 4 4 a -> Matrix.dims 4 4 b ->
  exists p, Matrix.multiply a b = Some p /\ Matrix.dims 4 4 p
            /\ p = Spec.mul a b.
Proof.
  intros Ha Hb. name_cells Ha. name_cells Hb.
  eexists. split; [reflexivity|]. split.
  - apply dims44_intro.
  - cbv [Matrix.matrixMultiply_ Matrix.productCell Matrix.cell Matrix.width
         Matrix.height Spec.mul Spec.dot Spec.column
         hd length seq map nth fold_left fold_right combine fst snd].
    cells.
Qed.

(** ** The library model on small inputs *)

Example createIdentityMatrix_4 :
  Matrix.createIdentityMatrix 4
  = [ [1; 0; 0; 0]; [0; 1; 0; 0]; [0; 0; 1; 0]; [0; 0; 0; 1] ].
Proof. reflexivity. Qed.

Example getValueAt_inside :
  Matrix.getValueAt (translate_matrix 7 8 9) 1 3 = Some 8.
Proof. reflexivity. Qed.

Example getValueAt_outside :
  Matrix.getValueAt (translate_matrix 7 8 9) 4 0 = None.
Proof. reflexivity. Qed.

Example setValueAt_inside :
  Matrix.setValueAt (Matrix.zeros 3 3) 1 2 5
  = Some [ [0; 0; 0]; [0; 0; 5]; [0; 0; 0] ].
Proof. reflexivity. Qed.

Example multiply_2x2 :
  Matrix.multiply [ [1; 2]; [3; 4] ] [ [0; 1]; [1; 0] ]
  = Some [ [0 + 1 * 0 + 2 * 1; 0 + 1 * 1 + 2 * 0];
           [0 + 3 * 0 + 4 * 1; 0 + 3 * 1 + 4 * 0] ].
Proof. reflexivity. Qed.

Example multiply_mismatch :
  Matrix.multiply [ [1; 2] ] [ [1; 2] ] = None.
Proof. reflexivity. Qed.

Example getInverse_2x2 :
  exists inv,
    Matrix.getInverse [ [2; 0]; [0; 4] ] = Some inv
    /\ inv = [ [1 / 2; 0]; [0; 1 / 4] ].
Proof.
  unfold Matrix.getInverse.
  cbn [Matrix.width Matrix.height length hd Nat.eqb].
  destruct (Req_dec_T _ 0) as [Hz|_].
  - exfalso. revert Hz.
    cbv [Matrix.det Matrix.minor Matrix.remove_nth Matrix.cell
         seq map nth fold_left pow].
    lra.
  - eexists. split; [reflexivity|].
    cbv [Matrix.det Matrix.minor Matrix.remove_nth Matrix.cell Matrix.cofactor
         Nat.add pred seq map nth fold_left pow].
    split_cells; field.
Qed.

Example getInverse_singular :
  Matrix.getInverse [ [1; 2]; [2; 4] ] = None.
Proof.
  unfold Matrix.getInverse.
  cbn [Matrix.width Matrix.height length hd Nat.eqb].
  destruct (Req_dec_T _ 0) as [_|Hnz]; [reflexivity|].
  exfalso. apply Hnz.
  cbv [Matrix.det Matrix.minor Matrix.remove_nth Matrix.cell
       seq map nth fold_left pow].
  ring.
Qed.

Lemma wf_new : wf new.
Proof. apply dims44_intro. Qed.

(** Every composition is [compose]: on a 4x4 state and a 4x4 operation
    matrix it succeeds, stores the product in [matrix_] and leaves the
    other property alone. *)
Lemma compose_4x4 (op : Matrix.t) (this : TransformationMatrix) :
  wf this -> Matrix.dims 4 4 op ->
  exists this', compose op this = Some this'
                /\ matrix_ this' = Spec.mul (matrix_ this) op
                /\ matrix this' = matrix this
                /\ wf this'.
Proof.
  intros Hthis Hop.
  destruct (multiply_4x4 _ _ Hthis Hop) as (p & Hmul & Hp & ->).
  exists (set_matrix_ this (Spec.mul (matrix_ this) op)).
  unfold compose. rewrite Hmul. simpl. auto.
Qed.

(** The operation matrices of the source are those of the specification. *)

Lemma translate_matrix_spec (x y z : R) :
  translate_matrix x y z = Spec.translation x y z.
Proof. reflexivity. Qed.

Lemma scale_matrix_spec (x y z : R) :
  scale_matrix x y z = Spec.scaling x y z.
Proof. reflexivity. Qed.

Lemma rotate_matrix_spec (theta x y z : R) :
  rotate_matrix theta x y z = Spec.rodrigues theta x y z.
Proof. unfold rotate_matrix, Spec.rodrigues. cells. Qed.

Lemma lookAt_matrix_spec (eye center up : Vec3.t) :
  lookAt_matrix eye center up = Spec.orientation eye center up.
Proof. reflexivity. Qed.

Lemma rotate_matrix_dims (theta x y z : R) :
  Matrix.dims 4 4 (rotate_matrix theta x y z).
Proof. apply dims44_intro. Qed.

(** ** translate, scale, rotate *)

(** C7. translate(x, y, z) replaces the internal matrix with the internal
    matrix times T(x, y, z), the identity whose last column holds x, y, z in
    its top three rows; from the identity, translate(1, 2, 3) gives a matrix
    whose last column starts with 1, 2, 3 and whose upper-left 3x3 block is
    the identity. *)
Theorem translate_right_multiplies :
  (forall (this : TransformationMatrix) (x y z : R),
      wf this ->
      exists this',
        translate x y z this = Some this'
        /\ matrix_ this' = Spec.mul (matrix_ this) (Spec.translation x y z)
        /\ matrix this' = matrix this)
  /\ (exists this',
        translate 1 2 3 new = Some this'
        /\ matrix_ this' = [ [1; 0; 0; 1]; [0; 1; 0; 2];
                              [0; 0; 1; 3]; [0; 0; 0; 1] ]
        /\ firstn 3 (Spec.column 3 (matrix_ this')) = [1; 2; 3]
        /\ Spec.upper_left_3x3 (matrix_ this') = Spec.identity 3).
Proof.
  split.
  - intros this x y z Hthis.
    destruct (compose_4x4 (translate_matrix x y z) this Hthis
                (dims44_intro _ _ _ _ _ _ _ _ _ _ _ _ _ _ _ _))
      as (this' & Hrun & Hm & Hother & _).
    exists this'. rewrite <- translate_matrix_spec. auto.
  - assert (E : translate 1 2 3 new
                = Some (mkTM [ [1; 0; 0; 1]; [0; 1; 0; 2];
                               [0; 0; 1; 3]; [0; 0; 0; 1] ] None)).
    { cbv [translate compose new bind set_matrix_ matrix matrix_
           translate_matrix Matrix.multiply Matrix.createIdentityMatrix
           Matrix.matrixMultiply_ Matrix.productCell Matrix.cell
           Matrix.width Matrix.height
           hd length seq map nth fold_left Nat.eqb].
      cells. }
    eexists. split; [exact E|]. simpl. repeat split; reflexivity.
Qed.

(** The composition of C7 at the identity state and (1, 2, 3). *)
Lemma translate_right_multiplies_witness :
  wf new
  /\ exists this',
      translate 1 2 3 new = Some this'
      /\ matrix_ this' = Spec.mul (matrix_ new) (Spec.translation 1 2 3)
      /\ matrix this' = matrix new.
Proof.
  split.
  - split; [reflexivity | repeat constructor].
  - apply (proj1 translate_right_multiplies new 1 2 3).
    split; [reflexivity | repeat constructor].
Defined.

(** C8. scale(x, y, z) replaces the internal matrix with the internal matrix
    times S(x, y, z) = diag(x, y, z, 1); from the identity, scale(2, 3, 4)
    gives exactly diag(2, 3, 4, 1). *)
Theorem scale_right_multiplies :
  (forall (this : TransformationMatrix) (x y z : R),
      wf this ->
      exists this',
        scale x y z this = Some this'
        /\ matrix_ this' = Spec.mul (matrix_ this) (Spec.scaling x y z)
        /\ matrix this' = matrix this)
  /\ (exists this',
        scale 2 3 4 new = Some this'
        /\ matrix_ this' = Spec.diag [2; 3; 4; 1]).
Proof.
  split.
  - intros this x y z Hthis.
    destruct (compose_4x4 (scale_matrix x y z) this Hthis
                (dims44_intro _ _ _ _ _ _ _ _ _ _ _ _ _ _ _ _))
      as (this' & Hrun & Hm & Hother & _).
    exists this'. rewrite <- scale_matrix_spec. auto.
  - assert (E : scale 2 3 4 new = Some (mkTM (Spec.diag [2; 3; 4; 1]) None)).
    { cbv [scale compose new bind set_matrix_ matrix matrix_
           scale_matrix Matrix.multiply Matrix.createIdentityMatrix
           Matrix.matrixMultiply_ Matrix.productCell Matrix.cell
           Matrix.width Matrix.height Spec.diag
           hd length seq map nth fold_left Nat.eqb].
      cells. }
    eexists. split; [exact E | reflexivity].
Qed.

(** The composition of C8 at the identity state and (2, 3, 4). *)
Lemma scale_right_multiplies_witness :
  wf new
  /\ exists this',
      scale 2 3 4 new = Some this'
      /\ matrix_ this' = Spec.mul (matrix_ new) (Spec.scaling 2 3 4)
      /\ matrix this' = matrix new.
Proof.
  split.
  - split; [reflexivity | repeat constructor].
  - apply (proj1 scale_right_multiplies new 2 3 4).
    split; [reflexivity | repeat constructor].
Defined.

(** C3. rotate(theta, x, y, z) replaces the internal matrix with the
    internal matrix times R, the matrix of Rodrigues' formula for
    c = cos theta and s = sin theta. *)
Theorem rotate_right_multiplies :
  forall (this : TransformationMatrix) (theta x y z : R),
    wf this ->
    exists this',
      rotate theta x y z this = Some this'
      /\ matrix_ this' = Spec.mul (matrix_ this) (Spec.rodrigues theta x y z)
      /\ matrix this' = matrix this.
Proof.
  intros this theta x y z Hthis.
  destruct (compose_4x4 (rotate_matrix theta x y z) this Hthis
              (rotate_matrix_dims theta x y z))
    as (this' & Hrun & Hm & Hother & _).
  exists this'. rewrite <- rotate_matrix_spec. auto.
Qed.

(** C3 at the identity state, a quarter turn about the axis (0, 0, 1). *)
Lemma rotate_right_multiplies_witness :
  wf new
  /\ exists this',
      rotate (PI / 2) 0 0 1 new = Some this'
      /\ matrix_ this'
         = Spec.mul (matrix_ new) (Spec.rodrigues (PI / 2) 0 0 1)
      /\ matrix this' = matrix new.
Proof.
  split.
  - split; [reflexivity | repeat constructor].
  - apply (rotate_right_multiplies new (PI / 2) 0 0 1).
    split; [reflexivity | repeat constructor].
Defined.

(** C10. rotate(theta, 0, 0, 0) is not rejected: it replaces the internal
    matrix with the internal matrix times diag(cos theta, cos theta,
    cos theta, 1), as scale(cos theta, cos theta, cos theta) does. *)
Theorem rotate_zero_axis :
  forall (this : TransformationMatrix) (theta : R),
    wf this ->
    exists this',
      rotate theta 0 0 0 this = Some this'
      /\ matrix_ this'
         = Spec.mul (matrix_ this)
                    (Spec.diag [cos theta; cos theta; cos theta; 1])
      /\ matrix this' = matrix this
      /\ scale (cos theta) (cos theta) (cos theta) this = Some this'.
Proof.
  intros this theta Hthis.
  assert (E : rotate_matrix theta 0 0 0
              = Spec.diag [cos theta; cos theta; cos theta; 1]).
  { cbv [rotate_matrix Spec.diag length seq map nth Nat.eqb]. cells. }
  destruct (compose_4x4 (rotate_matrix theta 0 0 0) this Hthis
              (rotate_matrix_dims theta 0 0 0))
    as (this' & Hrun & Hm & Hother & _).
  exists this'. repeat split; auto.
  - now rewrite <- E.
  - unfold scale. rewrite scale_matrix_spec. unfold Spec.scaling.
    rewrite <- E. exact Hrun.
Qed.

(** C10 at the identity state and the angle 0. *)
Lemma rotate_zero_axis_witness :
  wf new
  /\ exists this',
      rotate 0 0 0 0 new = Some this'
      /\ matrix_ this'
         = Spec.mul (matrix_ new) (Spec.diag [cos 0; cos 0; cos 0; 1])
      /\ matrix this' = matrix new
      /\ scale (cos 0) (cos 0) (cos 0) new = Some this'.
Proof.
  split.
  - split; [reflexivity | repeat constructor].
  - apply (rotate_zero_axis new 0).
    split; [reflexivity | repeat constructor].
Defined.


(** ** Construction, loadIdentity and sequences of operations *)

Lemma lookAt_4x4 (this : TransformationMatrix) (eye center up : Vec3.t) :
  wf this ->
  exists this',
    lookAt eye center up this = Some this'
    /\ matrix_ this'
       = Spec.mul (matrix_ this)
           (Spec.translation (- Vec3.x eye) (- Vec3.y eye) (- Vec3.z eye))
    /\ matrix this'
       = Some (Spec.mul (matrix_ this) (Spec.orientation eye center up))
    /\ wf this'.
Proof.
  intros Hthis.
  destruct (multiply_4x4 (matrix_ this) (lookAt_matrix eye center up) Hthis
              (dims44_intro _ _ _ _ _ _ _ _ _ _ _ _ _ _ _ _))
    as (p & Hmul & _ & ->).
  unfold lookAt. rewrite Hmul. cbn [bind].
  destruct (compose_4x4 (translate_matrix (- Vec3.x eye) (- Vec3.y eye)
                           (- Vec3.z eye))
              (set_matrix this (Spec.mul (matrix_ this)
                                         (lookAt_matrix eye center up)))
              Hthis (dims44_intro _ _ _ _ _ _ _ _ _ _ _ _ _ _ _ _))
    as (this' & Hrun & Hm & Hother & Hwf).
  exists this'. repeat split; auto; apply Hwf.
Qed.

Lemma perform_wf (o : operation) (this : TransformationMatrix) :
  wf this -> exists this', perform o this = Some this' /\ wf this'.
Proof.
  intros Hthis.
  destruct o as [x y z|x y z|angle x y z|angle|angle|angle|eye center up|];
    cbn [perform].
  1-6: match goal with
       | |- exists _, ?f _ = _ /\ _ =>
           let op := eval red in f in
           match op with
           | compose ?m =>
               destruct (compose_4x4 m this Hthis
                           (dims44_intro _ _ _ _ _ _ _ _ _ _ _ _ _ _ _ _))
                 as (this' & Hrun & _ & _ & Hwf);
               exists this'; split; [exact Hrun | exact Hwf]
           end
       end.
  - destruct (lookAt_4x4 this eye center up Hthis)
      as (this' & Hrun & _ & _ & Hwf).
    now exists this'.
  - eexists. split; [reflexivity | apply dims44_intro].
Qed.

(** Every sequence of operations runs to completion on a 4x4 state, and
    leaves a 4x4 state. *)
Lemma run_wf (os : list operation) :
  forall this, wf this -> exists this', run os this = Some this' /\ wf this'.
Proof.
  induction os as [|o os IH]; intros this Hthis; cbn [run].
  - now exists this.
  - destruct (perform_wf o this Hthis) as (this1 & -> & Hwf1).
    cbn [bind]. now apply IH.
Qed.

(** C9. A new TransformationMatrix holds exactly the 4x4 identity, and in
    the state reached by any sequence of operations loadIdentity puts
    exactly the 4x4 identity back. *)
Theorem identity_construction_and_reset :
  getStandardMatrix new
  = [ [1; 0; 0; 0]; [0; 1; 0; 0]; [0; 0; 1; 0]; [0; 0; 0; 1] ]
  /\ forall os : list operation,
      exists this,
        run os new = Some this
        /\ getStandardMatrix (loadIdentity this)
           = [ [1; 0; 0; 0]; [0; 1; 0; 0]; [0; 0; 1; 0]; [0; 0; 0; 1] ]
        /\ run (os ++ [LoadIdentity]) new = Some (loadIdentity this).
Proof.
  split; [reflexivity|].
  intros os. destruct (run_wf os new wf_new) as (this & Hrun & _).
  exists this. repeat split; auto.
  clear - Hrun. revert Hrun. generalize new.
  induction os as [|o os IH]; intros start; cbn [run app].
  - now intros [= ->].
  - destruct (perform o start) as [next|]; cbn [bind]; [apply IH | discriminate].
Qed.

(** ** lookAt *)

(** What an operation leaves in [matrix_] depends on [matrix_] alone. *)
Lemma compose_reads_matrix_ (op : Matrix.t) (a b : TransformationMatrix) :
  matrix_ a = matrix_ b ->
  option_map matrix_ (compose op a) = option_map matrix_ (compose op b).
Proof.
  intros E. unfold compose. rewrite E.
  now destruct (Matrix.multiply (matrix_ b) op).
Qed.

Lemma perform_reads_matrix_ (o : operation) (a b : TransformationMatrix) :
  matrix_ a = matrix_ b ->
  option_map matrix_ (perform o a) = option_map matrix_ (perform o b).
Proof.
  intros E.
  destruct o; cbn [perform]; try (now apply compose_reads_matrix_).
  - unfold lookAt. rewrite E.
    destruct (Matrix.multiply (matrix_ b) (lookAt_matrix eye center up));
      cbn [bind]; [|reflexivity].
    now apply compose_reads_matrix_.
  - reflexivity.
Qed.

Lemma run_reads_matrix_ (os : list operation) :
  forall a b : TransformationMatrix,
    matrix_ a = matrix_ b ->
    option_map matrix_ (run os a) = option_map matrix_ (run os b).
Proof.
  induction os as [|o os IH]; intros a b E; cbn [run].
  - cbn. now rewrite E.
  - pose proof (perform_reads_matrix_ o a b E) as Hstep.
    destruct (perform o a) as [a'|], (perform o b) as [b'|];
      cbn in Hstep; try discriminate; cbn [bind]; [|reflexivity].
    apply IH. now injection Hstep.
Qed.

(** C2. After lookAt(eye, center, up) the field [matrix_] holds the previous
    matrix times T(-eye) only; the product with the orientation matrix is in
    the other property, [matrix], and what any later operation leaves in
    [matrix_], and what getStandardMatrix and getInverseMat3 return, is what
    they would after translate(-eye.x, -eye.y, -eye.z) alone.  (The
    conditions on eye, center and up are not needed.) *)
Theorem lookAt_translates_only :
  forall (this : TransformationMatrix) (eye center up : Vec3.t),
    wf this ->
    exists this' t,
      lookAt eye center up this = Some this'
      /\ translate (- Vec3.x eye) (- Vec3.y eye) (- Vec3.z eye) this = Some t
      /\ matrix_ this'
         = Spec.mul (matrix_ this)
             (Spec.translation (- Vec3.x eye) (- Vec3.y eye) (- Vec3.z eye))
      /\ matrix this'
         = Some (Spec.mul (matrix_ this) (Spec.orientation eye center up))
      /\ getStandardMatrix this' = getStandardMatrix t
      /\ getInverseMat3 this' = getInverseMat3 t
      /\ forall os : list operation,
          option_map matrix_ (run os this') = option_map matrix_ (run os t).
Proof.
  intros this eye center up Hthis.
  destruct (lookAt_4x4 this eye center up Hthis)
    as (this' & Hrun & Hm & Hother & _).
  destruct (compose_4x4 (translate_matrix (- Vec3.x eye) (- Vec3.y eye)
                           (- Vec3.z eye)) this Hthis
              (dims44_intro _ _ _ _ _ _ _ _ _ _ _ _ _ _ _ _))
    as (t & Ht & Hmt & _ & _).
  assert (E : matrix_ this' = matrix_ t)
    by (rewrite Hm, Hmt; reflexivity).
  exists this', t. repeat split; auto.
  - unfold getInverseMat3. now rewrite E.
  - intros os. now apply run_reads_matrix_.
Qed.

(** C2 at the identity state, looking from (1, 0, 0) at the origin. *)
Lemma lookAt_translates_only_witness :
  wf new
  /\ exists this' t,
      lookAt (Vec3.mk 1 0 0) (Vec3.mk 0 0 0) (Vec3.mk 0 1 0) new = Some this'
      /\ translate (- 1) (- 0) (- 0) new = Some t
      /\ matrix_ this'
         = Spec.mul (matrix_ new) (Spec.translation (- 1) (- 0) (- 0))
      /\ matrix this'
         = Some (Spec.mul (matrix_ new)
                   (Spec.orientation (Vec3.mk 1 0 0) (Vec3.mk 0 0 0)
                                     (Vec3.mk 0 1 0)))
      /\ getStandardMatrix this' = getStandardMatrix t
      /\ getInverseMat3 this' = getInverseMat3 t
      /\ forall os : list operation,
          option_map matrix_ (run os this') = option_map matrix_ (run os t).
Proof.
  split.
  - split; [reflexivity | repeat constructor].
  - apply (lookAt_translates_only new (Vec3.mk 1 0 0) (Vec3.mk 0 0 0)
             (Vec3.mk 0 1 0)).
    split; [reflexivity | repeat constructor].
Defined.

(** The orientation matrix for an eye at (1, 0, 0) looking at the origin
    with up = (0, 1, 0): forward is (-1, 0, 0), side is (0, 0, -1) and the
    new up is (0, 1, 0). *)
Lemma orientation_from_x_axis :
  Spec.orientation (Vec3.mk 1 0 0) (Vec3.mk 0 0 0) (Vec3.mk 0 1 0)
  = [ [0; 0; -1; 0]; [0; 1; 0; 0]; [1; 0; 0; 0]; [0; 0; 0; 1] ].
Proof.
  assert (Hfw : Vec3.normalize (Vec3.subtract (Vec3.mk 0 0 0) (Vec3.mk 1 0 0))
                = Vec3.mk (-1) 0 0).
  { unfold Vec3.normalize, Vec3.subtract, Vec3.magnitude. cbn [Vec3.x Vec3.y Vec3.z].
    replace ((0 - 1) * (0 - 1) + (0 - 0) * (0 - 0) + (0 - 0) * (0 - 0))
      with 1 by ring.
    rewrite sqrt_1. f_equal; field. }
  assert (Hside : Vec3.normalize (Vec3.cross (Vec3.mk (-1) 0 0) (Vec3.mk 0 1 0))
                  = Vec3.mk 0 0 (-1)).
  { unfold Vec3.normalize, Vec3.cross, Vec3.magnitude. cbn [Vec3.x Vec3.y Vec3.z].
    replace ((0 * 0 - 0 * 1) * (0 * 0 - 0 * 1)
             + (0 * 0 - -1 * 0) * (0 * 0 - -1 * 0)
             + (-1 * 1 - 0 * 0) * (-1 * 1 - 0 * 0))
      with 1 by ring.
    rewrite sqrt_1. f_equal; field. }
  unfold Spec.orientation. rewrite Hfw, Hside.
  unfold Spec.row_of, Spec.neg, Vec3.cross. cbn [Vec3.x Vec3.y Vec3.z].
  cells.
Qed.

(** C1, on the code.  From the identity state with eye = (1, 0, 0),
    center = (0, 0, 0) and up = (0, 1, 0), lookAt leaves T(-1, 0, 0) in the
    internal matrix; the orientation product went to the property [matrix].
    The composition (internal matrix x O) x T(-eye) is a different matrix. *)
Theorem lookAt_loses_orientation :
  exists this',
    lookAt (Vec3.mk 1 0 0) (Vec3.mk 0 0 0) (Vec3.mk 0 1 0) new = Some this'
    /\ matrix_ this'
       = [ [1; 0; 0; -1]; [0; 1; 0; 0]; [0; 0; 1; 0]; [0; 0; 0; 1] ]
    /\ matrix this'
       = Some [ [0; 0; -1; 0]; [0; 1; 0; 0]; [1; 0; 0; 0]; [0; 0; 0; 1] ]
    /\ Spec.mul
         (Spec.mul (matrix_ new)
            (Spec.orientation (Vec3.mk 1 0 0) (Vec3.mk 0 0 0) (Vec3.mk 0 1 0)))
         (Spec.translation (- 1) (- 0) (- 0))
       = [ [0; 0; -1; 0]; [0; 1; 0; 0]; [1; 0; 0; -1]; [0; 0; 0; 1] ]
    /\ matrix_ this'
       <> Spec.mul
            (Spec.mul (matrix_ new)
               (Spec.orientation (Vec3.mk 1 0 0) (Vec3.mk 0 0 0)
                                 (Vec3.mk 0 1 0)))
            (Spec.translation (- 1) (- 0) (- 0)).
Proof.
  destruct (lookAt_4x4 new (Vec3.mk 1 0 0) (Vec3.mk 0 0 0) (Vec3.mk 0 1 0)
              wf_new) as (this' & Hrun & Hm & Hother & _).
  cbn [Vec3.x Vec3.y Vec3.z] in Hm.
  assert (Hprod : Spec.mul
            (Spec.mul (matrix_ new)
               (Spec.orientation (Vec3.mk 1 0 0) (Vec3.mk 0 0 0)
                                 (Vec3.mk 0 1 0)))
            (Spec.translation (- 1) (- 0) (- 0))
          = [ [0; 0; -1; 0]; [0; 1; 0; 0]; [1; 0; 0; -1]; [0; 0; 0; 1] ]).
  { rewrite orientation_from_x_axis.
    cbv [new matrix_ Matrix.createIdentityMatrix Spec.mul Spec.dot Spec.column
         Spec.translation Spec.set Spec.identity Spec.diag Matrix.update
         repeat hd length seq map nth fold_right combine fst snd Nat.eqb].
    cells. }
  assert (Hcode : matrix_ this'
          = [ [1; 0; 0; -1]; [0; 1; 0; 0]; [0; 0; 1; 0]; [0; 0; 0; 1] ]).
  { rewrite Hm.
    cbv [new matrix_ Matrix.createIdentityMatrix Spec.mul Spec.dot Spec.column
         Spec.translation Spec.set Spec.identity Spec.diag Matrix.update
         repeat hd length seq map nth fold_right combine fst snd Nat.eqb].
    cells. }
  exists this'. split; [exact Hrun|]. split; [exact Hcode|]. split.
  - rewrite Hother, orientation_from_x_axis. f_equal.
    cbv [new matrix_ Matrix.createIdentityMatrix Spec.mul Spec.dot Spec.column
         hd length seq map nth fold_right combine fst snd Nat.eqb].
    cells.
  - split; [exact Hprod|].
    rewrite Hprod, Hcode. intros E.
    apply (f_equal (fun m => Matrix.cell m 0 0)) in E.
    cbn [Matrix.cell nth] in E. lra.
Qed.

(** ** Rotation matrices are orthogonal *)



(** ** getInverseMat3 *)

(** The copy loop extracts the upper-left 3x3 block of a 4x4 matrix. *)
Lemma copy3x3_4x4 (m : Matrix.t) :
  Matrix.dims 4 4 m -> copy3x3 m = Some (Spec.upper_left_3x3 m).
Proof. intros Hm. name_cells Hm. reflexivity. Qed.




(** ** Invariants of the reachable states *)

(** X8. From a new object no sequence of calls throws and the internal
    matrix stays 4x4, whatever its cells; so every cell getValueAt is asked
    for is in range, and the copy loop of getInverseMat3 extracts exactly
    the upper-left 3x3 block. *)
Theorem reachable_states_are_4x4 :
  forall os : list operation,
    exists this,
      run os new = Some this
      /\ Matrix.height (getStandardMatrix this) = 4%nat
      /\ Forall (fun row => length row = 4%nat) (getStandardMatrix this)
      /\ (forall i j : nat,
            (i < 4)%nat -> (j < 4)%nat ->
            Matrix.getValueAt (getStandardMatrix this) i j
            = Some (Matrix.cell (getStandardMatrix this) i j))
      /\ copy3x3 (getStandardMatrix this)
         = Some (map (firstn 3) (firstn 3 (getStandardMatrix this))).
Proof.
  intros os. destruct (run_wf os new wf_new) as (this & Hrun & Hwf).
  exists this. split; [exact Hrun|].
  destruct Hwf as [Hheight Hrows]. split; [exact Hheight|].
  split; [exact Hrows|]. split.
  - intros i j Hi Hj. unfold Matrix.getValueAt, Matrix.isInBounds_.
    unfold getStandardMatrix, Matrix.height, Matrix.width.
    rewrite Hheight.
    assert (Hw : length (hd [] (matrix_ this)) = 4%nat).
    { destruct (matrix_ this) as [|r rest]; [discriminate|].
      now inversion Hrows. }
    rewrite Hw.
    apply Nat.ltb_lt in Hi. apply Nat.ltb_lt in Hj.
    now rewrite Hi, Hj.
  - apply (copy3x3_4x4 (matrix_ this)). now split.
Qed.

(** X9. Only lookAt writes the property [matrix]: a sequence of calls
    without lookAt, loadIdentity included, leaves it as it was. *)
Theorem only_lookAt_writes_matrix :
  forall (os : list operation) (this this' : TransformationMatrix),
    forallb (fun o => negb (is_lookAt o)) os = true ->
    run os this = Some this' ->
    matrix this' = matrix this.
Proof.
  induction os as [|o os IH]; intros this this' Hos Hrun; cbn [run] in Hrun.
  - now injection Hrun as <-.
  - cbn [forallb] in Hos. apply andb_prop in Hos. destruct Hos as [Ho Hos].
    destruct (perform o this) as [next|] eqn:Hstep; cbn [bind] in Hrun;
      [|discriminate].
    rewrite (IH next this' Hos Hrun).
    destruct o; cbn [perform is_lookAt negb] in Hstep, Ho;
      try discriminate Ho;
      try (unfold translate, scale, rotate, rotate010, rotate100, rotate001,
             compose in Hstep;
           destruct (Matrix.multiply _ _); cbn [bind] in Hstep;
           [|discriminate]);
      now injection Hstep as <-.
Qed.

(** X9 for a new object after a translation and a loadIdentity: the
    property is still absent. *)
Lemma only_lookAt_writes_matrix_witness :
  forallb (fun o => negb (is_lookAt o)) [Translate 1 2 3; LoadIdentity] = true
  /\ run [Translate 1 2 3; LoadIdentity] new
     = Some (loadIdentity
               (set_matrix_ new
                  (Matrix.matrixMultiply_ (matrix_ new)
                                          (translate_matrix 1 2 3))))
  /\ matrix (loadIdentity
               (set_matrix_ new
                  (Matrix.matrixMultiply_ (matrix_ new)
                                          (translate_matrix 1 2 3))))
     = matrix new.
Proof.
  split; [reflexivity|]. split; [reflexivity|].
  apply (only_lookAt_writes_matrix [Translate 1 2 3; LoadIdentity] new);
    reflexivity.
Defined.

(** ** Calls evaluated in binary64 *)

Module DoubleRuns.

Import Floats.PrimFloat.
Local Open Scope float_scope.

Example getInverse_with_row_swap :
  Double.getInverse [ [0; 2; 1]; [1; 0; 0]; [0; 0; 4] ]
  = Some [ [0; 1; 0]; [0.5; 0; -0.125]; [0; 0; 0.25] ].
Proof. vm_compute. reflexivity. Qed.

Example getInverse_singular_is_null :
  Double.getInverse [ [1; 2]; [2; 4] ] = None.
Proof. vm_compute. reflexivity. Qed.

Example getInverseMat3_new :
  Double.getInverseMat3 Double.new = Some (Double.createIdentityMatrix 3).
Proof. vm_compute. reflexivity. Qed.




End DoubleRuns.
